(** * BTC flush predictor (flusherr.py): a shallow embedding

    The module embeds [MarketState] and the four methods of
    [BTCFlushPredictor].  Conventions of the embedding:

    - a Python [float] is an exact rational ([Q]); rounding of binary64 is
      not modelled there, so every numeric statement on these definitions is
      one of real arithmetic; the module [Binary64] evaluates the two scorers
      on IEEE binary64 numbers, to tell where rounding separates the program
      from real arithmetic;
    - [/] on floats raises [ZeroDivisionError] when the divisor is zero;
      the divisions by the literals [0.0008], [8], [5e9] and [50] cannot
      raise and are written with [Qdiv];
    - the object attributes [self.flush_probability] and [self.features]
      are the state threaded through every method; an exception leaves the
      mutations made before it in place;
    - [datetime.utcnow().hour] is the environment: the hour is an argument
      of the methods that read the clock. *)

From Stdlib Require Import QArith Qabs Qminmax Lqa ZArith Bool Floats.
From stdpp Require Import gmap strings fin_maps.

Set Warnings "-inexact-float".

Local Open Scope Q_scope.

(** ** Python arithmetic on floats *)

Module Py.

Definition ltb (a b : Q) : bool := negb (Qle_bool b a).
Definition gtb (a b : Q) : bool := ltb b a.

(** [min(a, b)] and [max(a, b)] return the first argument unless the second
    one is strictly smaller, respectively larger. *)
Definition min (a b : Q) : Q := if ltb b a then b else a.
Definition max (a b : Q) : Q := if gtb b a then b else a.

Definition is_zero (a : Q) : bool := Qeq_bool a 0.

End Py.

(** ** Exceptions and the state-and-exception monad *)

Inductive PyError : Type :=
  | ZeroDivisionError
  | KeyError (key : string).

(** [self] of a [BTCFlushPredictor]. *)
Record Predictor : Type := mkPredictor {
  self_flush_probability : Q;
  self_features : gmap string Q
}.

Definition M (A : Type) : Type := Predictor -> Predictor * (PyError + A).

Definition ret {A} (a : A) : M A := fun self => (self, inr a).
Definition raise {A} (e : PyError) : M A := fun self => (self, inl e).
Definition bind {A B} (m : M A) (k : A -> M B) : M B :=
  fun self =>
    match m self with
    | (self', inr a) => k a self'
    | (self', inl e) => (self', inl e)
    end.

Notation "'let*' x ':=' m 'in' k" := (bind m (fun x => k))
  (at level 10, x name, m at level 100, k at level 200).
Notation "'exec' m 'in' k" := (bind m (fun _ => k))
  (at level 10, m at level 100, k at level 200).

(** [a / b] with a divisor that is not a literal. *)
Definition fdiv (a b : Q) : M Q :=
  if Py.is_zero b then raise ZeroDivisionError else ret (a / b).

(** [self.features[key] = v] *)
Definition set_feature (key : string) (v : Q) : M unit :=
  fun self =>
    (mkPredictor (self_flush_probability self) (<[key := v]> (self_features self)),
     inr tt).

(** [self.features[key]] *)
Definition get_feature (key : string) : M Q :=
  fun self =>
    match self_features self !! key with
    | Some v => (self, inr v)
    | None => (self, inl (KeyError key))
    end.

(** [self.flush_probability = v] *)
Definition set_flush_probability (v : Q) : M unit :=
  fun self => (mkPredictor v (self_features self), inr tt).

(** [self.flush_probability] *)
Definition get_flush_probability : M Q :=
  fun self => (self, inr (self_flush_probability self)).

(** ** The data *)

Inductive Structure : Type := breakdown | consolidation | breakout.

Record MarketState : Type := mkMarketState {
  price : Q;
  funding_rate : Q;
  funding_countdown_hours : Q;
  volume_24h : Q;
  rsi_1h : Q;
  support_level : Q;
  resistance_level : Q;
  structure : Structure
}.

(** The dictionary the object holds; the value under ['features'] of a
    returned prediction is this very object, not a copy. *)
Inductive DictRef : Type := ref_self_features.

(** The dictionary [predict] returns. *)
Record Prediction : Type := mkPrediction {
  flush_probability : Q;
  target_price : Q;
  regime : string;
  signal : string;
  features : DictRef;
  confidence : string
}.

(** [BTCFlushPredictor.__init__] *)
Definition init : Predictor := mkPredictor 0 ∅.

(** ** The methods *)

Definition calculate_funding_pressure (state : MarketState) : M Q :=
  let funding_z := Py.min (Qabs (funding_rate state) / (8 # 10000)) 1 in
  let time_pressure := 1 - funding_countdown_hours state / 8 in
  let time_pressure := Py.max (3 # 10) (Py.min time_pressure (95 # 100)) in
  let* price_vs_resistance :=
    fdiv (resistance_level state - price state) (resistance_level state) in
  let funding_penalty :=
    if Py.gtb (funding_rate state) 0 && Py.gtb price_vs_resistance (1 # 100)
    then 15 # 10
    else 1 in
  exec set_feature "funding_pressure" (funding_z * time_pressure * funding_penalty) in
  get_feature "funding_pressure".

Definition structural_breakdown_score (state : MarketState) : M Q :=
  let* breakdown_severity :=
    if Py.ltb (price state) (support_level state) then ret 1
    else
      let* distance_to_support :=
        fdiv (price state - support_level state) (support_level state) in
      ret (Py.max 0 (1 - distance_to_support * 10)) in
  let volume_score := Py.min (volume_24h state / 5000000000) 1 in
  let rsi_score :=
    if Py.ltb (rsi_1h state) 50 then (50 - rsi_1h state) / 50 else 0 in
  exec set_feature "structure_score"
    (breakdown_severity * (5 # 10) + volume_score * (3 # 10) + rsi_score * (2 # 10)) in
  get_feature "structure_score".

Definition time_regime_classifier (hour_utc : Z) (state : MarketState) : M string :=
  if ((8 <=? hour_utc) && (hour_utc <? 16))%Z then
    if Py.ltb (funding_countdown_hours state) 1
    then ret "funding_liquidation_window"
    else ret "consolidation_bleed"
  else if ((0 <=? hour_utc) && (hour_utc <? 8))%Z then ret "asia_deleveraging"
  else if ((19 <=? hour_utc) && (hour_utc <=? 21))%Z then ret "us_momentum"
  else ret "standard".

Definition predict (hour_utc : Z) (state : MarketState) : M Prediction :=
  let* funding_pain := calculate_funding_pressure state in
  let* structural_damage := structural_breakdown_score state in
  let* regime := time_regime_classifier hour_utc state in
  let* target :=
    (if String.eqb regime "funding_liquidation_window" && Py.gtb funding_pain (6 # 10) then
       exec set_flush_probability (Py.min (funding_pain * structural_damage * (12 # 10)) (85 # 100)) in
       ret (support_level state * (995 # 1000))
     else if Py.gtb structural_damage (7 # 10) && Py.gtb (funding_rate state) 0 then
       exec set_flush_probability (structural_damage * (8 # 10)) in
       ret (support_level state)
     else if String.eqb regime "consolidation_bleed" && Py.ltb (rsi_1h state) 40 then
       exec set_flush_probability (5 # 10) in
       ret (support_level state)
     else
       exec set_flush_probability (2 # 10) in
       ret (resistance_level state)) in
  let* p := get_flush_probability in
  ret {| flush_probability := p;
         target_price := target;
         regime := regime;
         signal := if Py.gtb p (65 # 100) then "SHORT_FLUSH" else "NEUTRAL/CONSOLIDATION";
         features := ref_self_features;
         confidence := if Py.gtb p (7 # 10) then "HIGH"
                       else if Py.gtb p (5 # 10) then "MEDIUM" else "LOW" |}.

(** The reference state of the [__main__] block. *)
Definition current_state : MarketState :=
  {| price := 82845;
     funding_rate := 60 # 100000;
     funding_countdown_hours := 295 # 100;
     volume_24h := 3710000000;
     rsi_1h := 375 # 10;
     support_level := 81118;
     resistance_level := 83400;
     structure := consolidation |}.

(** ** What each method computes *)

Section Values.

Variable state : MarketState.

Definition funding_z : Q := Py.min (Qabs (funding_rate state) / (8 # 10000)) 1.

Definition time_pressure : Q :=
  Py.max (3 # 10) (Py.min (1 - funding_countdown_hours state / 8) (95 # 100)).

Definition price_vs_resistance : Q :=
  (resistance_level state - price state) / resistance_level state.

Definition penalised : bool :=
  Py.gtb (funding_rate state) 0 && Py.gtb price_vs_resistance (1 # 100).

Definition funding_penalty : Q := if penalised then 15 # 10 else 1.

Definition funding_pressure : Q := funding_z * time_pressure * funding_penalty.

Definition breakdown_severity : Q :=
  if Py.ltb (price state) (support_level state) then 1
  else Py.max 0 (1 - (price state - support_level state) / support_level state * 10).

Definition volume_score : Q := Py.min (volume_24h state / 5000000000) 1.

Definition rsi_score : Q :=
  if Py.ltb (rsi_1h state) 50 then (50 - rsi_1h state) / 50 else 0.

Definition structure_score : Q :=
  breakdown_severity * (5 # 10) + volume_score * (3 # 10) + rsi_score * (2 # 10).

(** The second division is reached and divides by zero. *)
Definition support_division_fails : bool :=
  negb (Py.ltb (price state) (support_level state)) && Py.is_zero (support_level state).

Definition record (key : string) (v : Q) (self : Predictor) : Predictor :=
  mkPredictor (self_flush_probability self) (<[key := v]> (self_features self)).

End Values.

Section Decision.

Variables (hour_utc : Z) (state : MarketState).

Definition european_session : bool := ((8 <=? hour_utc) && (hour_utc <? 16))%Z.

Definition regime_label : string :=
  if european_session then
    if Py.ltb (funding_countdown_hours state) 1
    then "funding_liquidation_window" else "consolidation_bleed"
  else if ((0 <=? hour_utc) && (hour_utc <? 8))%Z then "asia_deleveraging"
  else if ((19 <=? hour_utc) && (hour_utc <=? 21))%Z then "us_momentum"
  else "standard".

(** The four branches of [predict], numbered as they are tried. *)
Definition rule1 : bool :=
  String.eqb regime_label "funding_liquidation_window" &&
  Py.gtb (funding_pressure state) (6 # 10).

Definition rule2 : bool :=
  Py.gtb (structure_score state) (7 # 10) && Py.gtb (funding_rate state) 0.

Definition rule3 : bool :=
  String.eqb regime_label "consolidation_bleed" && Py.ltb (rsi_1h state) 40.

Definition chosen_probability : Q :=
  if rule1 then Py.min (funding_pressure state * structure_score state * (12 # 10)) (85 # 100)
  else if rule2 then structure_score state * (8 # 10)
  else if rule3 then 5 # 10
  else 2 # 10.

Definition chosen_target : Q :=
  if rule1 then support_level state * (995 # 1000)
  else if rule2 then support_level state
  else if rule3 then support_level state
  else resistance_level state.

Definition signal_of (p : Q) : string :=
  if Py.gtb p (65 # 100) then "SHORT_FLUSH" else "NEUTRAL/CONSOLIDATION".

Definition confidence_of (p : Q) : string :=
  if Py.gtb p (7 # 10) then "HIGH" else if Py.gtb p (5 # 10) then "MEDIUM" else "LOW".

Definition prediction : Prediction :=
  {| flush_probability := chosen_probability;
     target_price := chosen_target;
     regime := regime_label;
     signal := signal_of chosen_probability;
     features := ref_self_features;
     confidence := confidence_of chosen_probability |}.

(** The object after a call of [predict] that returns. *)
Definition after_predict (self : Predictor) : Predictor :=
  mkPredictor chosen_probability
    (<["structure_score" := structure_score state]>
       (<["funding_pressure" := funding_pressure state]> (self_features self))).

End Decision.

(** ** Snapshots and properties used in the statements *)

Definition probability_in_range (hour_utc : Z) (state : MarketState) (self : Predictor) : Prop :=
  exists self' r,
    predict hour_utc state self = (self', inr r) /\
    0 <= flush_probability r <= 85 # 100.

(** One hour before funding, funding rate 0.08 %, and a negative volume. *)
Definition negative_volume_state : MarketState :=
  {| price := 82845;
     funding_rate := 8 # 10000;
     funding_countdown_hours := 1 # 2;
     volume_24h := - 50000000000;
     rsi_1h := 375 # 10;
     support_level := 81118;
     resistance_level := 83400;
     structure := consolidation |}.

Definition reference_outcome (conf : string) (hour_utc : Z) (state : MarketState)
    (self : Predictor) : Prop :=
  exists self' r,
    predict hour_utc state self = (self', inr r) /\
    regime r = "consolidation_bleed" /\
    flush_probability r == 1 # 2 /\
    target_price r == 81118 /\
    signal r = "NEUTRAL/CONSOLIDATION" /\
    confidence r = conf.

Definition fails_before_scoring (hour_utc : Z) (state : MarketState) (self : Predictor) : Prop :=
  exists e, predict hour_utc state self = (self, inl e).

(** The reference snapshot with its support level set to zero. *)
Definition zero_support_state : MarketState :=
  {| price := 82845;
     funding_rate := 60 # 100000;
     funding_countdown_hours := 295 # 100;
     volume_24h := 3710000000;
     rsi_1h := 375 # 10;
     support_level := 0;
     resistance_level := 83400;
     structure := consolidation |}.

(** The same with a negative price. *)
Definition zero_support_negative_price_state : MarketState :=
  {| price := - 1;
     funding_rate := 60 # 100000;
     funding_countdown_hours := 295 # 100;
     volume_24h := 3710000000;
     rsi_1h := 375 # 10;
     support_level := 0;
     resistance_level := 83400;
     structure := consolidation |}.

(** The reference snapshot with its resistance level set to zero. *)
Definition zero_resistance_state : MarketState :=
  {| price := 82845;
     funding_rate := 60 # 100000;
     funding_countdown_hours := 295 # 100;
     volume_24h := 3710000000;
     rsi_1h := 375 # 10;
     support_level := 81118;
     resistance_level := 0;
     structure := consolidation |}.

(** The dictionary a prediction points to, as the object holds it now. *)
Definition deref (self : Predictor) (d : DictRef) : gmap string Q :=
  match d with ref_self_features => self_features self end.

(** What a caller reads in a prediction while the object is in the state
    [self]: the scalar entries and the contents of the dictionary under
    ['features']. *)
Definition observed (self : Predictor) (r : Prediction)
    : Q * Q * string * string * gmap string Q * string :=
  (flush_probability r, target_price r, regime r, signal r,
   deref self (features r), confidence r).

(** No state is carried from one call to the next: a prediction returned by
    one call reads the same after a later call on the same object. *)
Definition free_of_hidden_state (hour1 : Z) (state1 : MarketState)
    (hour2 : Z) (state2 : MarketState) (self : Predictor) : Prop :=
  forall self1 r1 self2 r2,
    predict hour1 state1 self = (self1, inr r1) ->
    predict hour2 state2 self1 = (self2, inr r2) ->
    observed self2 r1 = observed self1 r1.

(** One hour before funding with the price below support: the first and the
    second condition of [predict] both hold. *)
Definition both_rules_state : MarketState :=
  {| price := 80000;
     funding_rate := 8 # 10000;
     funding_countdown_hours := 1 # 2;
     volume_24h := 5000000000;
     rsi_1h := 30;
     support_level := 81118;
     resistance_level := 83400;
     structure := breakdown |}.

(** Funding rate 0.08 %, settlement in 24 minutes, price 5 % under resistance. *)
Definition trapped_longs_state : MarketState :=
  {| price := 79230;
     funding_rate := 8 # 10000;
     funding_countdown_hours := 4 # 10;
     volume_24h := 3710000000;
     rsi_1h := 375 # 10;
     support_level := 81118;
     resistance_level := 83400;
     structure := breakdown |}.


(** The reference snapshot with the price 11 % above the support level. *)
Definition far_above_support_state : MarketState :=
  {| price := 90000;
     funding_rate := 60 # 100000;
     funding_countdown_hours := 295 # 100;
     volume_24h := 3710000000;
     rsi_1h := 375 # 10;
     support_level := 81118;
     resistance_level := 93400;
     structure := breakout |}.

(** The reference snapshot with a funding rate of zero. *)
Definition zero_funding_state : MarketState :=
  {| price := 82845;
     funding_rate := 0;
     funding_countdown_hours := 295 # 100;
     volume_24h := 3710000000;
     rsi_1h := 375 # 10;
     support_level := 81118;
     resistance_level := 83400;
     structure := consolidation |}.

(** The reference snapshot five hours before funding. *)
Definition five_hours_left_state : MarketState :=
  {| price := 82845;
     funding_rate := 60 # 100000;
     funding_countdown_hours := 5;
     volume_24h := 3710000000;
     rsi_1h := 375 # 10;
     support_level := 81118;
     resistance_level := 83400;
     structure := consolidation |}.

(** The reference snapshot with the price under the support level. *)
Definition broken_support_state : MarketState :=
  {| price := 80000;
     funding_rate := 60 # 100000;
     funding_countdown_hours := 295 # 100;
     volume_24h := 3710000000;
     rsi_1h := 375 # 10;
     support_level := 81118;
     resistance_level := 83400;
     structure := consolidation |}.

(** ** The scorers on binary64 numbers *)

(** The value each scorer returns when its arithmetic is that of Python's
    [float]: IEEE binary64, every operation rounded to nearest.  [None]
    stands for ZeroDivisionError.  The object plays no part in the value and
    is left out. *)
Module Binary64.

Local Open Scope float_scope.

Record MarketState : Type := mkMarketState {
  price : float;
  funding_rate : float;
  funding_countdown_hours : float;
  volume_24h : float;
  rsi_1h : float;
  support_level : float;
  resistance_level : float
}.

(** [min(a, b)] and [max(a, b)] of Python. *)
Definition min (a b : float) : float := if PrimFloat.ltb b a then b else a.
Definition max (a b : float) : float := if PrimFloat.ltb a b then b else a.

(** [a / b]: Python raises on a zero divisor of either sign. *)
Definition fdiv (a b : float) : option float :=
  if PrimFloat.eqb b 0 then None else Some (a / b).

Definition funding_z (state : MarketState) : float :=
  min (PrimFloat.abs (funding_rate state) / 0.0008) 1.0.

Definition time_pressure (state : MarketState) : float :=
  max 0.3 (min (1 - funding_countdown_hours state / 8) 0.95).

Definition calculate_funding_pressure (state : MarketState) : option float :=
  let funding_z := funding_z state in
  let time_pressure := time_pressure state in
  match fdiv (resistance_level state - price state) (resistance_level state) with
  | None => None
  | Some price_vs_resistance =>
      let funding_penalty :=
        if PrimFloat.ltb 0 (funding_rate state) && PrimFloat.ltb 0.01 price_vs_resistance
        then 1.5
        else 1.0 in
      Some (funding_z * time_pressure * funding_penalty)
  end.

Definition volume_score (state : MarketState) : float :=
  min (volume_24h state / 5e9) 1.0.

Definition rsi_score (state : MarketState) : float :=
  if PrimFloat.ltb (rsi_1h state) 50 then (50 - rsi_1h state) / 50 else 0.

Definition structural_breakdown_score (state : MarketState) : option float :=
  match
    (if PrimFloat.ltb (price state) (support_level state) then Some 1.0
     else
       match fdiv (price state - support_level state) (support_level state) with
       | None => None
       | Some distance_to_support => Some (max 0 (1 - distance_to_support * 10))
       end)
  with
  | None => None
  | Some breakdown_severity =>
      Some (breakdown_severity * 0.5 + volume_score state * 0.3 + rsi_score state * 0.2)
  end.

(** The rational a finite binary64 number stands for. *)
Definition to_Q (x : float) : option Q :=
  match Prim2SF x with
  | S754_zero _ => Some 0%Q
  | S754_finite s m e =>
      let z := if s then Z.neg m else Z.pos m in
      Some (inject_Z z * Qpower 2 e)%Q
  | S754_infinity _ | S754_nan => None
  end.

(** [x] is finite and stands for a rational above [q]. *)
Definition above (q : Q) (x : float) : bool :=
  match to_Q x with
  | Some v => negb (Qle_bool v q)
  | None => false
  end.

(** The condition under which the scorer multiplies by 1.5. *)
Definition penalised (state : MarketState) : bool :=
  match fdiv (resistance_level state - price state) (resistance_level state) with
  | Some price_vs_resistance =>
      PrimFloat.ltb 0 (funding_rate state) && PrimFloat.ltb 0.01 price_vs_resistance
  | None => false
  end.

(** C6 on binary64 numbers: the score is above 1 exactly when the penalty
    applies and [funding_z * time_pressure] is above 2/3. *)
Definition above_one_iff_penalised (state : MarketState) : Prop :=
  forall v,
    calculate_funding_pressure state = Some v ->
    (above 1 v = true <->
     penalised state = true /\ above (2 # 3) (funding_z state * time_pressure state) = true).


(** Funding rate 0.08 %, settlement in 24 minutes, price 5 % under resistance. *)
Definition trapped_longs_state : MarketState :=
  {| price := 79230;
     funding_rate := 0.0008;
     funding_countdown_hours := 0.4;
     volume_24h := 3.71e9;
     rsi_1h := 37.5;
     support_level := 81118;
     resistance_level := 83400 |}.

(** Funding rate 0.1 %, a countdown just under 2 h 40 min, price 5 % under
    resistance: the product of [funding_z] and [time_pressure] is the
    binary64 number next above 2/3. *)
Definition two_thirds_state : MarketState :=
  {| price := 79230;
     funding_rate := 0.001;
     funding_countdown_hours := 0x1.5555555555554p+1;
     volume_24h := 3.71e9;
     rsi_1h := 37.5;
     support_level := 81118;
     resistance_level := 83400 |}.

(** Price 80000 under support 81118, volume 5e9, RSI 30. *)
Definition broken_support_state : MarketState :=
  {| price := 80000;
     funding_rate := 0.0008;
     funding_countdown_hours := 0.5;
     volume_24h := 5e9;
     rsi_1h := 30;
     support_level := 81118;
     resistance_level := 83400 |}.

End Binary64.

(** * Proofs *)

Example predict_current_state :
  snd (predict 13 current_state init) =
  inr {| flush_probability := 5 # 10; target_price := 81118;
         regime := "consolidation_bleed"; signal := "NEUTRAL/CONSOLIDATION";
         features := ref_self_features; confidence := "LOW" |}.
Proof. vm_compute. reflexivity. Qed.

(** ** Facts on the Python arithmetic *)

Section PyFacts.

Lemma ltb_lt (a b : Q) : Py.ltb a b = true <-> a < b.
Proof.
  unfold Py.ltb. rewrite negb_true_iff, <- not_true_iff_false, Qle_bool_iff.
  split; [apply Qnot_le_lt | apply Qlt_not_le].
Qed.

Lemma ltb_ge (a b : Q) : Py.ltb a b = false <-> b <= a.
Proof. unfold Py.ltb. rewrite negb_false_iff. apply Qle_bool_iff. Qed.

Lemma gtb_gt (a b : Q) : Py.gtb a b = true <-> b < a.
Proof. apply ltb_lt. Qed.

Lemma gtb_le (a b : Q) : Py.gtb a b = false <-> a <= b.
Proof. apply ltb_ge. Qed.

Lemma is_zero_true (a : Q) : Py.is_zero a = true <-> a == 0.
Proof. apply Qeq_bool_iff. Qed.

Lemma is_zero_false (a : Q) : Py.is_zero a = false <-> ~ a == 0.
Proof. rewrite <- is_zero_true. symmetry. apply not_true_iff_false. Qed.

Lemma min_le_l (a b : Q) : Py.min a b <= a.
Proof.
  unfold Py.min. destruct (Py.ltb b a) eqn:E; [| lra].
  apply ltb_lt in E. lra.
Qed.

Lemma min_le_r (a b : Q) : Py.min a b <= b.
Proof.
  unfold Py.min. destruct (Py.ltb b a) eqn:E; [lra |].
  apply ltb_ge in E. lra.
Qed.

Lemma min_glb (a b c : Q) : c <= a -> c <= b -> c <= Py.min a b.
Proof. unfold Py.min. destruct (Py.ltb b a); trivial. Qed.

Lemma max_le_l (a b : Q) : a <= Py.max a b.
Proof.
  unfold Py.max. destruct (Py.gtb b a) eqn:E; [| lra].
  apply gtb_gt in E. lra.
Qed.

Lemma max_le_r (a b : Q) : b <= Py.max a b.
Proof.
  unfold Py.max. destruct (Py.gtb b a) eqn:E; [lra |].
  apply gtb_le in E. lra.
Qed.

Lemma max_lub (a b c : Q) : a <= c -> b <= c -> Py.max a b <= c.
Proof. unfold Py.max. destruct (Py.gtb b a); trivial. Qed.

(** The quotient of a difference by a positive divisor keeps its sign. *)
Lemma div_pos_nonneg (a b : Q) : 0 <= a -> 0 < b -> 0 <= a / b.
Proof. intros Ha Hb. apply Qle_shift_div_l; lra. Qed.

End PyFacts.

(** [lra] does not look through a division; the ones by a literal are
    rewritten as products by the literal's inverse. *)
Ltac literal_divisions :=
  unfold Qdiv in *;
  repeat match goal with
  | |- context [Qinv (Qmake ?n ?d)] =>
      let v := eval vm_compute in (Qinv (Qmake n d)) in
      change (Qinv (Qmake n d)) with v
  | H : context [Qinv (Qmake ?n ?d)] |- _ =>
      let v := eval vm_compute in (Qinv (Qmake n d)) in
      change (Qinv (Qmake n d)) with v in H
  end.

Ltac qarith := literal_divisions; first [lra | nra].

(** Splits on a comparison and leaves its meaning as a hypothesis. *)
Ltac py_case c :=
  let E := fresh "E" in
  destruct c eqn:E;
  [ first [ apply ltb_lt in E | apply gtb_gt in E | apply is_zero_true in E ]
  | first [ apply ltb_ge in E | apply gtb_le in E | apply is_zero_false in E ] ].

(** ** What each method computes *)

Section Runs.

Variables (hour_utc : Z) (state : MarketState).

Lemma calculate_funding_pressure_run (self : Predictor) :
  calculate_funding_pressure state self =
  if Py.is_zero (resistance_level state) then (self, inl ZeroDivisionError)
  else (record "funding_pressure" (funding_pressure state) self,
        inr (funding_pressure state)).
Proof.
  unfold calculate_funding_pressure, fdiv, bind at 1.
  destruct (Py.is_zero (resistance_level state)); [reflexivity |].
  unfold ret, bind, set_feature, get_feature, record. cbn [self_features].
  rewrite lookup_insert_eq. reflexivity.
Qed.

Lemma structural_breakdown_score_run (self : Predictor) :
  structural_breakdown_score state self =
  if support_division_fails state then (self, inl ZeroDivisionError)
  else (record "structure_score" (structure_score state) self,
        inr (structure_score state)).
Proof.
  unfold structural_breakdown_score, support_division_fails,
    structure_score, breakdown_severity, fdiv, bind.
  destruct (Py.ltb (price state) (support_level state)); cbn [negb andb].
  - unfold ret, set_feature, get_feature, record. cbn [self_features].
    rewrite lookup_insert_eq. reflexivity.
  - destruct (Py.is_zero (support_level state)); [reflexivity |].
    unfold ret, set_feature, get_feature, record. cbn [self_features].
    rewrite lookup_insert_eq. reflexivity.
Qed.

Lemma time_regime_classifier_run (self : Predictor) :
  time_regime_classifier hour_utc state self = (self, inr (regime_label hour_utc state)).
Proof.
  unfold time_regime_classifier, regime_label, european_session.
  repeat match goal with |- context [if ?c then _ else _] => destruct c end;
    reflexivity.
Qed.

Lemma regime_is_liquidation_window :
  String.eqb (regime_label hour_utc state) "funding_liquidation_window" =
  european_session hour_utc && Py.ltb (funding_countdown_hours state) 1.
Proof.
  unfold regime_label.
  repeat match goal with |- context [if ?c then _ else _] => destruct c end;
    reflexivity.
Qed.

Lemma regime_is_consolidation_bleed :
  String.eqb (regime_label hour_utc state) "consolidation_bleed" =
  european_session hour_utc && negb (Py.ltb (funding_countdown_hours state) 1).
Proof.
  unfold regime_label.
  repeat match goal with |- context [if ?c then _ else _] => destruct c end;
    reflexivity.
Qed.

Lemma predict_run (self : Predictor) :
  predict hour_utc state self =
  if Py.is_zero (resistance_level state) then (self, inl ZeroDivisionError)
  else if support_division_fails state
       then (record "funding_pressure" (funding_pressure state) self, inl ZeroDivisionError)
       else (after_predict hour_utc state self, inr (prediction hour_utc state)).
Proof.
  unfold predict, bind at 1.
  rewrite calculate_funding_pressure_run.
  destruct (Py.is_zero (resistance_level state)); [reflexivity |].
  unfold bind at 1. rewrite structural_breakdown_score_run.
  destruct (support_division_fails state); [reflexivity |].
  unfold bind at 1. rewrite time_regime_classifier_run.
  unfold after_predict, prediction, chosen_probability, chosen_target, rule1, rule2, rule3,
    signal_of, confidence_of.
  destruct (String.eqb (regime_label hour_utc state) "funding_liquidation_window"
            && Py.gtb (funding_pressure state) (6 # 10)); [reflexivity |].
  destruct (Py.gtb (structure_score state) (7 # 10) && Py.gtb (funding_rate state) 0);
    [reflexivity |].
  destruct (String.eqb (regime_label hour_utc state) "consolidation_bleed"
            && Py.ltb (rsi_1h state) 40);
    reflexivity.
Qed.

End Runs.

(** ** What a returning call of [predict] yields *)

Lemma predict_returns (hour_utc : Z) (state : MarketState) (self self' : Predictor)
    (r : Prediction) :
  predict hour_utc state self = (self', inr r) -> r = prediction hour_utc state.
Proof.
  rewrite predict_run.
  destruct (Py.is_zero (resistance_level state)); [discriminate |].
  destruct (support_division_fails state); [discriminate |].
  intros [= _ <-]. reflexivity.
Qed.

Lemma predict_returns_state (hour_utc : Z) (state : MarketState) (self self' : Predictor)
    (r : Prediction) :
  predict hour_utc state self = (self', inr r) ->
  self' = after_predict hour_utc state self.
Proof.
  rewrite predict_run.
  destruct (Py.is_zero (resistance_level state)); [discriminate |].
  destruct (support_division_fails state); [discriminate |].
  intros [= <- _]. reflexivity.
Qed.

Lemma predict_returns_scores (hour_utc : Z) (state : MarketState) (self self' : Predictor)
    (r : Prediction) :
  predict hour_utc state self = (self', inr r) ->
  forall other : Predictor,
    snd (calculate_funding_pressure state other) = inr (funding_pressure state) /\
    snd (structural_breakdown_score state other) = inr (structure_score state).
Proof.
  rewrite predict_run. intros Hrun other.
  rewrite calculate_funding_pressure_run, structural_breakdown_score_run.
  destruct (Py.is_zero (resistance_level state)); [discriminate |].
  destruct (support_division_fails state); [discriminate |].
  split; reflexivity.
Qed.

(** ** Ranges of the scores *)

Section Ranges.

Variable state : MarketState.

Lemma funding_z_range : 0 <= funding_z state <= 1.
Proof.
  unfold funding_z. split; [| apply min_le_r].
  apply min_glb; [| lra].
  pose proof (Qabs_nonneg (funding_rate state)). qarith.
Qed.

Lemma time_pressure_range : 3 # 10 <= time_pressure state <= 95 # 100.
Proof.
  unfold time_pressure. split; [apply max_le_l |].
  apply max_lub; [lra | apply min_le_r].
Qed.

Lemma funding_penalty_cases :
  (penalised state = true /\ funding_penalty state = 15 # 10) \/
  (penalised state = false /\ funding_penalty state = 1).
Proof. unfold funding_penalty. destruct (penalised state); auto. Qed.

Lemma funding_pressure_range : 0 <= funding_pressure state <= 1425 # 1000.
Proof.
  unfold funding_pressure.
  pose proof funding_z_range as Hz. pose proof time_pressure_range as Ht.
  destruct funding_penalty_cases as [[_ ->] | [_ ->]]; nra.
Qed.

Lemma breakdown_severity_nonneg : 0 <= breakdown_severity state.
Proof.
  unfold breakdown_severity.
  destruct (Py.ltb (price state) (support_level state)); [lra | apply max_le_l].
Qed.

Lemma breakdown_severity_le_1 :
  0 < support_level state -> breakdown_severity state <= 1.
Proof.
  intros Hs. unfold breakdown_severity.
  py_case (Py.ltb (price state) (support_level state)); [lra |].
  apply max_lub; [lra |].
  assert (0 <= (price state - support_level state) / support_level state)
    by (apply div_pos_nonneg; lra).
  lra.
Qed.

Lemma volume_score_le_1 : volume_score state <= 1.
Proof. apply min_le_r. Qed.

Lemma volume_score_nonneg : 0 <= volume_24h state -> 0 <= volume_score state.
Proof. intros Hv. unfold volume_score. apply min_glb; qarith. Qed.

Lemma rsi_score_nonneg : 0 <= rsi_score state.
Proof.
  unfold rsi_score. py_case (Py.ltb (rsi_1h state) 50); qarith.
Qed.

Lemma rsi_score_le_1 : 0 <= rsi_1h state -> rsi_score state <= 1.
Proof.
  intros Hr. unfold rsi_score. py_case (Py.ltb (rsi_1h state) 50); qarith.
Qed.

Lemma structure_score_le_1 :
  0 <= rsi_1h state -> 0 < support_level state -> structure_score state <= 1.
Proof.
  intros Hr Hs. unfold structure_score.
  pose proof (breakdown_severity_le_1 Hs). pose proof volume_score_le_1.
  pose proof (rsi_score_le_1 Hr). lra.
Qed.

Lemma structure_score_nonneg :
  0 <= volume_24h state -> 0 <= structure_score state.
Proof.
  intros Hv. unfold structure_score.
  pose proof breakdown_severity_nonneg. pose proof (volume_score_nonneg Hv).
  pose proof rsi_score_nonneg. lra.
Qed.

End Ranges.

(** ** The probability returned by [predict] *)

(** C1, as stated, fails: with a negative [volume_24h] the structure score is
    negative and the first branch of [predict], whose [min] only caps the
    product from above, returns a negative probability, although [rsi_1h]
    is in [0,100] and both levels are positive. *)
Lemma negative_volume_leaves_range :
  (0 <= rsi_1h negative_volume_state <= 100 /\
   0 < support_level negative_volume_state /\
   0 < resistance_level negative_volume_state) /\
  ~ probability_in_range 13 negative_volume_state init.
Proof.
  split; [repeat split; reflexivity || discriminate |].
  intros (self' & r & Hrun & Hlo & _).
  assert (E : match snd (predict 13 negative_volume_state init) with
              | inr r' => Qle_bool 0 (flush_probability r')
              | inl _ => false
              end = false) by (vm_compute; reflexivity).
  rewrite Hrun in E. cbn [snd] in E.
  apply Qle_bool_iff in Hlo. congruence.
Qed.

(** C1 (amended): for every snapshot whose [rsi_1h] lies in [0,100], whose
    [support_level] and [resistance_level] are positive and whose
    [volume_24h] is not negative, [predict] returns and the
    [flush_probability] of its result lies in [0, 0.85]. *)
Theorem flush_probability_range (hour_utc : Z) (state : MarketState) (self : Predictor) :
  0 <= rsi_1h state <= 100 ->
  0 < support_level state ->
  0 < resistance_level state ->
  0 <= volume_24h state ->
  probability_in_range hour_utc state self.
Proof.
  intros [Hr _] Hs Hres Hv. unfold probability_in_range.
  rewrite predict_run.
  assert (Py.is_zero (resistance_level state) = false) as ->
    by (apply is_zero_false; lra).
  assert (support_division_fails state = false) as ->.
  { unfold support_division_fails.
    assert (Py.is_zero (support_level state) = false) as ->
      by (apply is_zero_false; lra).
    apply andb_false_r. }
  eexists _, _. split; [reflexivity |].
  cbn [flush_probability prediction]. unfold chosen_probability.
  pose proof (funding_pressure_range state) as Hp.
  pose proof (structure_score_nonneg state Hv) as Hd0.
  pose proof (structure_score_le_1 state Hr Hs) as Hd1.
  destruct (rule1 hour_utc state).
  { split; [apply min_glb; nra | apply min_le_r]. }
  destruct (rule2 state) eqn:R2.
  { apply andb_true_iff in R2 as [R2 _]. apply gtb_gt in R2. lra. }
  destruct (rule3 hour_utc state); lra.
Qed.

Lemma flush_probability_range_witness :
  probability_in_range 13 current_state init.
Proof.
  apply (flush_probability_range 13 current_state init).
  - split; discriminate.
  - reflexivity.
  - reflexivity.
  - discriminate.
Defined.

(** ** The reference scenario *)

(** C2, as stated, fails: the third branch sets the probability to 0.5, and
    0.5 is not above 0.5, so the confidence is not MEDIUM. *)
Lemma reference_scenario_not_medium :
  ~ reference_outcome "MEDIUM" 13 current_state init.
Proof.
  intros (self' & r & Hrun & _ & _ & _ & _ & Hc).
  pose proof predict_current_state as E.
  rewrite Hrun in E. cbn [snd] in E.
  injection E as ->. discriminate Hc.
Qed.

(** C2 (amended): for the reference snapshot evaluated at hour 13, [predict]
    returns regime consolidation_bleed, flush probability 0.5, target price
    81118, signal NEUTRAL/CONSOLIDATION and confidence LOW, whatever the
    object held before. *)
Theorem reference_scenario (self : Predictor) :
  reference_outcome "LOW" 13 current_state self.
Proof.
  unfold reference_outcome. rewrite predict_run.
  eexists _, _. split; [reflexivity |].
  repeat split; vm_compute; reflexivity.
Qed.

(** ** Division by zero *)

Lemma record_changes_features (key : string) (v : Q) (self : Predictor) :
  self_features self !! key = None -> record key v self <> self.
Proof.
  intros Hnone Heq. apply (f_equal (fun p => self_features p !! key)) in Heq.
  unfold record in Heq. cbn [self_features] in Heq.
  rewrite lookup_insert_eq, Hnone in Heq. discriminate.
Qed.

(** C3, as stated, fails: with a zero support level the funding pressure is
    computed and stored in [self.features] before the division by the
    support level raises; the object is not left as it was. *)
Lemma zero_support_fails_after_scoring :
  support_level zero_support_state == 0 /\
  ~ fails_before_scoring 13 zero_support_state init.
Proof.
  split; [reflexivity |].
  intros [e Hrun]. rewrite predict_run in Hrun.
  change (Py.is_zero (resistance_level zero_support_state)) with false in Hrun.
  change (support_division_fails zero_support_state) with true in Hrun.
  apply (f_equal fst) in Hrun. cbn [fst] in Hrun.
  revert Hrun. apply record_changes_features. reflexivity.
Qed.

(** C3 (amended): [predict] has no validation step and no InvalidInput
    error.  With a zero resistance level it raises ZeroDivisionError before
    any score is stored.  With a non-zero resistance level, a zero support
    level and a price that is not below the support level, it raises
    ZeroDivisionError after the funding pressure has been stored, and
    returns nothing.  In every case [predict] either returns a complete
    prediction or raises ZeroDivisionError, and it raises only when one of
    the two levels is zero. *)
Theorem division_by_zero_behaviour (hour_utc : Z) (state : MarketState) (self : Predictor) :
  (resistance_level state == 0 ->
     predict hour_utc state self = (self, inl ZeroDivisionError)) /\
  (~ resistance_level state == 0 -> support_level state == 0 -> 0 <= price state ->
     predict hour_utc state self =
     (record "funding_pressure" (funding_pressure state) self, inl ZeroDivisionError)) /\
  ((exists self' r, predict hour_utc state self = (self', inr r)) \/
   (exists self', predict hour_utc state self = (self', inl ZeroDivisionError) /\
                  (resistance_level state == 0 \/ support_level state == 0))).
Proof.
  rewrite predict_run.
  py_case (Py.is_zero (resistance_level state)).
  { repeat split; [contradiction | right; eauto]. }
  unfold support_division_fails.
  py_case (Py.ltb (price state) (support_level state)); cbn [negb andb].
  { repeat split; [intro; contradiction | intros _ Hs Hp; lra | left; eauto]. }
  py_case (Py.is_zero (support_level state)).
  - repeat split; [intro; contradiction | right; eauto].
  - repeat split; [intro; contradiction | intros _ Hs; contradiction | left; eauto].
Qed.

Lemma division_by_zero_behaviour_witness :
  predict 13 zero_resistance_state init = (init, inl ZeroDivisionError) /\
  predict 13 zero_support_state init =
  (record "funding_pressure" (funding_pressure zero_support_state) init,
   inl ZeroDivisionError).
Proof.
  split.
  - apply (proj1 (division_by_zero_behaviour 13 zero_resistance_state init)).
    reflexivity.
  - apply (proj1 (proj2 (division_by_zero_behaviour 13 zero_support_state init))).
    + discriminate.
    + reflexivity.
    + discriminate.
Defined.

Example zero_support_negative_price_returns :
  exists self' r,
    predict 13 zero_support_negative_price_state init = (self', inr r).
Proof. rewrite predict_run. eexists _, _. reflexivity. Qed.

(** ** Determinism and the state of the object *)

Lemma after_predict_idempotent (hour_utc : Z) (state : MarketState) (self : Predictor) :
  after_predict hour_utc state (after_predict hour_utc state self) =
  after_predict hour_utc state self.
Proof.
  unfold after_predict. cbn [self_features]. f_equal.
  rewrite (insert_insert_ne _ "funding_pressure" "structure_score") by discriminate.
  rewrite !insert_insert_eq. reflexivity.
Qed.

Lemma record_idempotent (key : string) (v : Q) (self : Predictor) :
  record key v (record key v self) = record key v self.
Proof. unfold record. cbn. f_equal. apply insert_insert_eq. Qed.

Lemma ltb_proper (a a' b : Q) : a == a' -> Py.ltb a b = Py.ltb a' b.
Proof.
  intros Ha. unfold Py.ltb. f_equal.
  apply eq_true_iff_eq. rewrite !Qle_bool_iff, Ha. reflexivity.
Qed.

Lemma predict_on_other_object (hour_utc : Z) (state : MarketState)
    (self self' other : Predictor) (outcome : PyError + Prediction) :
  predict hour_utc state self = (self', outcome) ->
  exists other', predict hour_utc state other = (other', outcome) /\
    (forall r, outcome = inr r -> other' = after_predict hour_utc state other).
Proof.
  rewrite !predict_run.
  destruct (Py.is_zero (resistance_level state)).
  { intros [= _ <-]. eexists. split; [reflexivity | discriminate]. }
  destruct (support_division_fails state).
  { intros [= _ <-]. eexists. split; [reflexivity | discriminate]. }
  intros [= _ <-]. eexists. split; reflexivity.
Qed.

(** C4, as stated, fails: [predict] keeps its scores in the dictionary of the
    object and hands that dictionary out in every prediction.  The
    prediction for the reference snapshot shows a structure score of about
    0.666 when it is returned, and 0.88 once the same object has been asked
    about another snapshot. *)
Lemma later_call_changes_earlier_prediction :
  ~ free_of_hidden_state 13 current_state 13 both_rules_state init.
Proof.
  intros Hfree.
  specialize (Hfree (after_predict 13 current_state init) (prediction 13 current_state)
                (after_predict 13 both_rules_state (after_predict 13 current_state init))
                (prediction 13 both_rules_state)).
  rewrite !predict_run in Hfree.
  specialize (Hfree eq_refl eq_refl).
  apply (f_equal (fun o => match snd (fst o) !! "structure_score" with
                           | Some q => Qle_bool (7 # 10) q
                           | None => false
                           end)) in Hfree.
  vm_compute in Hfree. discriminate.
Qed.

(** C4 (amended): [predict] is determined by the snapshot, the hour and the
    object it is called on, and it does keep state in that object.  Two
    successive calls with the same snapshot and hour give the same outcome,
    the contents of the feature dictionary included, and the second call
    leaves the object as the first left it.  On another object the outcome
    is the same prediction, with the same two scores in its dictionary; the
    other entries of the dictionary are those the object held before the
    call.  After a later call that returns, an earlier prediction points to
    the dictionary written by the later call.  [time_regime_classifier]
    leaves the object untouched and its label depends only on the hour and
    on [funding_countdown_hours]. *)
Theorem predict_repeatable (hour_utc : Z) (state : MarketState) (self : Predictor) :
  (let (self1, r1) := predict hour_utc state self in
   let (self2, r2) := predict hour_utc state self1 in
   r1 = r2 /\ self2 = self1 /\
   match r1, r2 with
   | inr p1, inr p2 =>
       observed self2 p2 = observed self1 p1 /\ observed self2 p1 = observed self1 p1
   | _, _ => True
   end) /\
  (forall (other self' : Predictor) (outcome : PyError + Prediction),
     predict hour_utc state self = (self', outcome) ->
     exists other',
       predict hour_utc state other = (other', outcome) /\
       forall r, outcome = inr r ->
         deref other' (features r) !! "funding_pressure" =
           deref self' (features r) !! "funding_pressure" /\
         deref other' (features r) !! "structure_score" =
           deref self' (features r) !! "structure_score" /\
         forall key : string,
           key <> "funding_pressure" -> key <> "structure_score" ->
           deref other' (features r) !! key = self_features other !! key) /\
  (forall (hour2 : Z) (state2 : MarketState) (self1 self2 : Predictor)
          (r1 r2 : Prediction),
     predict hour_utc state self = (self1, inr r1) ->
     predict hour2 state2 self1 = (self2, inr r2) ->
     deref self2 (features r1) = deref self2 (features r2) /\
     forall v, snd (structural_breakdown_score state2 self1) = inr v ->
       deref self2 (features r1) !! "structure_score" = Some v) /\
  (forall (state' : MarketState) (other : Predictor),
     funding_countdown_hours state' == funding_countdown_hours state ->
     snd (time_regime_classifier hour_utc state' other) =
     snd (time_regime_classifier hour_utc state self)) /\
  fst (time_regime_classifier hour_utc state self) = self.
Proof.
  split; [| split; [| split; [| split]]].
  - rewrite predict_run.
    destruct (Py.is_zero (resistance_level state)) eqn:Hres.
    { rewrite predict_run, Hres. auto. }
    destruct (support_division_fails state) eqn:Hsup.
    { rewrite predict_run, Hres, Hsup, record_idempotent. auto. }
    rewrite predict_run, Hres, Hsup, after_predict_idempotent. auto.
  - intros other self' outcome Hrun.
    destruct (predict_on_other_object _ _ _ _ other _ Hrun) as (other' & Hother & Hstate).
    exists other'. split; [exact Hother |].
    intros r ->. rewrite (Hstate r eq_refl).
    pose proof (predict_returns _ _ _ _ _ Hrun) as ->.
    apply predict_returns_state in Hrun. subst self'.
    cbn [features prediction deref]. unfold after_predict. cbn [self_features].
    repeat split.
    + rewrite !(lookup_insert_ne _ "structure_score" "funding_pressure") by discriminate.
      rewrite !lookup_insert_eq. reflexivity.
    + rewrite !lookup_insert_eq. reflexivity.
    + intros key Hk1 Hk2. rewrite !lookup_insert_ne by congruence. reflexivity.
  - intros hour2 state2 self1 self2 r1 r2 Hrun1 Hrun2.
    pose proof (predict_returns _ _ _ _ _ Hrun1) as ->.
    pose proof (predict_returns _ _ _ _ _ Hrun2) as ->.
    destruct (predict_returns_scores _ _ _ _ _ Hrun2 self1) as [_ Hsd].
    apply predict_returns_state in Hrun2. subst self2.
    split; [reflexivity |].
    intros v Hv. rewrite Hsd in Hv. injection Hv as <-.
    cbn [features prediction deref]. unfold after_predict. cbn [self_features].
    apply lookup_insert_eq.
  - intros state' other Hcd. rewrite !time_regime_classifier_run. cbn [snd].
    unfold regime_label. rewrite (ltb_proper _ _ 1 Hcd). reflexivity.
  - rewrite time_regime_classifier_run. reflexivity.
Qed.

Lemma predict_repeatable_witness :
  snd (time_regime_classifier 13 zero_support_state init) =
  snd (time_regime_classifier 13 current_state init).
Proof.
  apply (proj1 (proj2 (proj2 (proj2 (predict_repeatable 13 current_state init))))).
  reflexivity.
Defined.

(** ** Precedence of the branches *)

(** C5: when the regime is funding_liquidation_window, the funding pressure
    is above 0.6, the structure score is above 0.7 and the funding rate is
    positive, [predict] takes its first branch: the probability is
    [min(funding_pain * structural_damage * 1.2, 0.85)] and the target is
    [support_level * 0.995]. *)
Theorem first_match_wins (hour_utc : Z) (state : MarketState)
    (self self1 self2 self3 : Predictor) (funding_pain structural_damage : Q) :
  calculate_funding_pressure state self = (self1, inr funding_pain) ->
  structural_breakdown_score state self1 = (self2, inr structural_damage) ->
  time_regime_classifier hour_utc state self2 = (self3, inr "funding_liquidation_window") ->
  6 # 10 < funding_pain ->
  7 # 10 < structural_damage ->
  0 < funding_rate state ->
  exists self' r,
    predict hour_utc state self = (self', inr r) /\
    flush_probability r = Py.min (funding_pain * structural_damage * (12 # 10)) (85 # 100) /\
    target_price r = support_level state * (995 # 1000).
Proof.
  intros Hfp Hsd Hreg Hp _ _.
  unfold predict, bind at 1. rewrite Hfp.
  unfold bind at 1. rewrite Hsd.
  unfold bind at 1. rewrite Hreg.
  apply gtb_gt in Hp. rewrite Hp. cbn [String.eqb Ascii.eqb Bool.eqb andb].
  eexists _, _. split; [reflexivity |]. split; reflexivity.
Qed.

Lemma first_match_wins_witness :
  exists self' r,
    predict 13 both_rules_state init = (self', inr r) /\
    flush_probability r =
      Py.min (funding_pressure both_rules_state * structure_score both_rules_state * (12 # 10))
             (85 # 100) /\
    target_price r = support_level both_rules_state * (995 # 1000).
Proof.
  eapply (first_match_wins 13 both_rules_state init).
  - rewrite calculate_funding_pressure_run. reflexivity.
  - rewrite structural_breakdown_score_run. reflexivity.
  - rewrite time_regime_classifier_run. reflexivity.
  - reflexivity.
  - reflexivity.
  - reflexivity.
Defined.

(** ** The funding pressure *)

(** C6, as stated, fails on binary64 numbers: with a funding rate of 0.1 %, a
    countdown of 2.6666666666666661 hours and the price 5 % under
    resistance, the penalty applies and [funding_z * time_pressure] is the
    binary64 number next above 2/3, yet its product by 1.5 rounds to exactly
    1.0, which is not above 1. *)
Lemma binary64_pressure_rounds_to_one :
  ~ Binary64.above_one_iff_penalised Binary64.two_thirds_state.
Proof.
  intros Hiff.
  assert (Hrun : Binary64.calculate_funding_pressure Binary64.two_thirds_state
                 = Some 1%float) by (vm_compute; reflexivity).
  destruct (Hiff _ Hrun) as [_ Hback].
  assert (Habove : Binary64.above 1 1%float = true)
    by (apply Hback; split; vm_compute; reflexivity).
  vm_compute in Habove. discriminate.
Qed.

(** C6 (amended): [calculate_funding_pressure] returns whenever the
    resistance level is not zero; what it returns is at least 0 and at most
    1.425; it is above 1 only when the penalty applies (positive funding rate
    and price more than 1 % under resistance) and [funding_z * time_pressure]
    is above 2/3, and under these conditions it is at least 1.  The score is
    not clamped to [0,1]: with a funding rate of 0.08 %, 24 minutes left and
    the price 5 % under resistance it is above 1, 1.4249999999999998 on
    binary64 numbers.  On binary64 numbers the score can be exactly 1.0 while
    the penalty applies and the product is above 2/3. *)
Theorem funding_pressure_bounds (state : MarketState) (self : Predictor) :
  (~ resistance_level state == 0 ->
     exists self' v, calculate_funding_pressure state self = (self', inr v)) /\
  (forall self' v,
     calculate_funding_pressure state self = (self', inr v) ->
     0 <= v <= 1425 # 1000 /\
     (1 < v ->
      (0 < funding_rate state /\
       1 # 100 < (resistance_level state - price state) / resistance_level state) /\
      2 # 3 < funding_z state * time_pressure state) /\
     ((0 < funding_rate state /\
       1 # 100 < (resistance_level state - price state) / resistance_level state) /\
      2 # 3 < funding_z state * time_pressure state ->
      1 <= v)) /\
  (exists self' v,
     calculate_funding_pressure trapped_longs_state self = (self', inr v) /\ 1 < v) /\
  (Binary64.calculate_funding_pressure Binary64.trapped_longs_state
     = Some 1.4249999999999998%float /\
   Binary64.above 1 1.4249999999999998%float = true) /\
  (Binary64.calculate_funding_pressure Binary64.two_thirds_state = Some 1%float /\
   Binary64.penalised Binary64.two_thirds_state = true /\
   Binary64.above (2 # 3)
     (Binary64.funding_z Binary64.two_thirds_state
      * Binary64.time_pressure Binary64.two_thirds_state)%float = true).
Proof.
  split; [| split; [| split; [| split]]].
  - intros Hres. rewrite calculate_funding_pressure_run.
    apply is_zero_false in Hres. rewrite Hres. eauto.
  - intros self' v. rewrite calculate_funding_pressure_run.
    destruct (Py.is_zero (resistance_level state)); [discriminate |].
    intros [= _ <-]. split; [apply funding_pressure_range |].
    unfold funding_pressure, funding_penalty, penalised, price_vs_resistance.
    pose proof (funding_z_range state) as Hz.
    pose proof (time_pressure_range state) as Ht.
    set (pvr := (resistance_level state - price state) / resistance_level state).
    py_case (Py.gtb (funding_rate state) 0); cbn [andb].
    + py_case (Py.gtb pvr (1 # 100)).
      * split; [intros; repeat split; trivial; nra | intros; nra].
      * split; [intros; nra | intros [[_ Hc] _]; lra].
    + split; [intros; nra | intros [[Hc _] _]; lra].
  - rewrite calculate_funding_pressure_run.
    eexists _, _. split; reflexivity.
  - split; vm_compute; reflexivity.
  - repeat split; vm_compute; reflexivity.
Qed.

Lemma funding_pressure_bounds_witness :
  exists self' v, calculate_funding_pressure current_state init = (self', inr v).
Proof.
  apply (proj1 (funding_pressure_bounds current_state init)). discriminate.
Defined.

(** ** The structure score below support *)






(** ** The regime table *)

(** C8: for an hour between 0 and 23, [time_regime_classifier] leaves the
    object as it is and returns funding_liquidation_window from 8 to 15 when
    less than one hour is left to funding, consolidation_bleed from 8 to 15
    otherwise, asia_deleveraging from 0 to 7, us_momentum from 19 to 21 and
    standard at the remaining hours. *)
Theorem regime_table (hour_utc : Z) (state : MarketState) (self : Predictor) :
  (0 <= hour_utc <= 23)%Z ->
  exists label,
    time_regime_classifier hour_utc state self = (self, inr label) /\
    ((8 <= hour_utc < 16)%Z -> funding_countdown_hours state < 1 ->
       label = "funding_liquidation_window") /\
    ((8 <= hour_utc < 16)%Z -> ~ funding_countdown_hours state < 1 ->
       label = "consolidation_bleed") /\
    ((0 <= hour_utc < 8)%Z -> label = "asia_deleveraging") /\
    ((19 <= hour_utc <= 21)%Z -> label = "us_momentum") /\
    ((16 <= hour_utc < 19)%Z \/ (21 < hour_utc <= 23)%Z -> label = "standard") /\
    (hour_utc = 13%Z -> funding_countdown_hours state == 1 # 2 ->
       label = "funding_liquidation_window") /\
    (hour_utc = 13%Z -> funding_countdown_hours state == 3 ->
       label = "consolidation_bleed") /\
    (hour_utc = 5%Z -> label = "asia_deleveraging") /\
    (hour_utc = 20%Z -> label = "us_momentum") /\
    (hour_utc = 23%Z -> label = "standard").
Proof.
  intros Hh. eexists. split; [apply time_regime_classifier_run |].
  unfold regime_label, european_session.
  destruct (8 <=? hour_utc)%Z eqn:H8; [apply Z.leb_le in H8 | apply Z.leb_gt in H8];
  destruct (hour_utc <? 16)%Z eqn:H16; [apply Z.ltb_lt in H16 | apply Z.ltb_ge in H16
                                       | apply Z.ltb_lt in H16 | apply Z.ltb_ge in H16];
  cbn [andb].
  - py_case (Py.ltb (funding_countdown_hours state) 1);
      repeat split; intros; try reflexivity; try lia; try (exfalso; lra).
  - assert ((0 <=? hour_utc) && (hour_utc <? 8) = false)%Z as ->
      by (apply andb_false_iff; right; apply Z.ltb_ge; lia).
    destruct (19 <=? hour_utc)%Z eqn:H19; [apply Z.leb_le in H19 | apply Z.leb_gt in H19];
    destruct (hour_utc <=? 21)%Z eqn:H21; [apply Z.leb_le in H21 | apply Z.leb_gt in H21
                                          | apply Z.leb_le in H21 | apply Z.leb_gt in H21];
    cbn [andb]; repeat split; intros; try reflexivity; lia.
  - assert ((0 <=? hour_utc) && (hour_utc <? 8) = true)%Z as ->
      by (apply andb_true_iff; split; [apply Z.leb_le | apply Z.ltb_lt]; lia).
    repeat split; intros; try reflexivity; lia.
  - lia.
Qed.

Lemma regime_table_witness :
  exists label,
    time_regime_classifier 13 current_state init = (init, inr label) /\
    label = "consolidation_bleed".
Proof.
  destruct (regime_table 13 current_state init) as (label & Hrun & _ & Hbleed & _).
  - lia.
  - exists label. split; [exact Hrun |].
    apply Hbleed; [lia | discriminate].
Defined.

(** ** Signal, confidence and target *)

(** C9: a prediction of confidence HIGH has the signal SHORT_FLUSH. *)
Theorem high_confidence_is_short_flush (hour_utc : Z) (state : MarketState)
    (self self' : Predictor) (r : Prediction) :
  predict hour_utc state self = (self', inr r) ->
  confidence r = "HIGH" ->
  signal r = "SHORT_FLUSH".
Proof.
  intros Hrun. apply predict_returns in Hrun. subst r.
  cbn [confidence signal prediction]. unfold confidence_of, signal_of.
  py_case (Py.gtb (chosen_probability hour_utc state) (7 # 10)).
  - intros _. assert (Py.gtb (chosen_probability hour_utc state) (65 # 100) = true) as ->
      by (apply gtb_gt; lra).
    reflexivity.
  - destruct (Py.gtb (chosen_probability hour_utc state) (5 # 10)); discriminate.
Qed.

Lemma high_confidence_is_short_flush_witness :
  signal (prediction 13 both_rules_state) = "SHORT_FLUSH".
Proof.
  apply (high_confidence_is_short_flush 13 both_rules_state init
           (after_predict 13 both_rules_state init)).
  - rewrite predict_run. reflexivity.
  - reflexivity.
Defined.

(** C10: a prediction of signal SHORT_FLUSH comes from the first or the
    second branch: its target is [support_level * 0.995] or [support_level];
    with 0 < support_level < resistance_level it is not the resistance
    level. *)
Theorem short_flush_targets_support (hour_utc : Z) (state : MarketState)
    (self self' : Predictor) (r : Prediction) :
  predict hour_utc state self = (self', inr r) ->
  signal r = "SHORT_FLUSH" ->
  (target_price r = support_level state * (995 # 1000) \/
   target_price r = support_level state) /\
  (0 < support_level state < resistance_level state ->
   ~ target_price r == resistance_level state).
Proof.
  intros Hrun. apply predict_returns in Hrun. subst r.
  cbn [signal target_price prediction].
  unfold signal_of, chosen_probability, chosen_target.
  destruct (rule1 hour_utc state).
  { intros _. split; [left; reflexivity | intros ? ?; lra]. }
  destruct (rule2 state).
  { intros _. split; [right; reflexivity | intros ? ?; lra]. }
  destruct (rule3 hour_utc state); discriminate.
Qed.

Lemma short_flush_targets_support_witness :
  target_price (prediction 13 both_rules_state) =
    support_level both_rules_state * (995 # 1000) \/
  target_price (prediction 13 both_rules_state) = support_level both_rules_state.
Proof.
  apply (short_flush_targets_support 13 both_rules_state init
           (after_predict 13 both_rules_state init)).
  - rewrite predict_run. reflexivity.
  - reflexivity.
Defined.

(** * Further properties of the methods *)

(** ** The structure score *)

Lemma structural_breakdown_score_returns (state : MarketState) (self self' : Predictor) (v : Q) :
  structural_breakdown_score state self = (self', inr v) -> v = structure_score state.
Proof.
  rewrite structural_breakdown_score_run.
  destruct (support_division_fails state); [discriminate |].
  intros [= _ <-]. reflexivity.
Qed.

Lemma calculate_funding_pressure_returns (state : MarketState) (self self' : Predictor) (v : Q) :
  calculate_funding_pressure state self = (self', inr v) -> v = funding_pressure state.
Proof.
  rewrite calculate_funding_pressure_run.
  destruct (Py.is_zero (resistance_level state)); [discriminate |].
  intros [= _ <-]. reflexivity.
Qed.

Lemma support_division_succeeds (state : MarketState) :
  ~ support_level state == 0 -> support_division_fails state = false.
Proof.
  intros Hs. unfold support_division_fails.
  apply is_zero_false in Hs. rewrite Hs. apply andb_false_r.
Qed.

(** X1: with a positive support level, an RSI that is not negative and a
    volume that is not negative, [structural_breakdown_score] returns a score
    between 0 and 1, as its docstring announces. *)
Theorem structure_score_unit_interval (state : MarketState) (self : Predictor) :
  0 < support_level state ->
  0 <= rsi_1h state ->
  0 <= volume_24h state ->
  exists self' v,
    structural_breakdown_score state self = (self', inr v) /\ 0 <= v <= 1.
Proof.
  intros Hs Hr Hv. rewrite structural_breakdown_score_run.
  rewrite support_division_succeeds by lra.
  eexists _, _. split; [reflexivity |]. split.
  - apply structure_score_nonneg, Hv.
  - apply structure_score_le_1; assumption.
Qed.

Lemma structure_score_unit_interval_witness :
  exists self' v,
    structural_breakdown_score current_state init = (self', inr v) /\ 0 <= v <= 1.
Proof.
  apply (structure_score_unit_interval current_state init).
  - reflexivity.
  - discriminate.
  - discriminate.
Defined.

(** X2: once the price is at least 10 % above a positive support level the
    breakdown severity is zero: the score is volume_score * 0.3 +
    rsi_score * 0.2, which is at most 0.5 when the RSI is not negative. *)
Theorem structure_score_far_above_support (state : MarketState) (self : Predictor) :
  0 < support_level state ->
  support_level state * (11 # 10) <= price state ->
  exists self' v,
    structural_breakdown_score state self = (self', inr v) /\
    v == Py.min (volume_24h state / 5000000000) 1 * (3 # 10)
         + (if Py.ltb (rsi_1h state) 50 then (50 - rsi_1h state) / 50 else 0) * (2 # 10) /\
    (0 <= rsi_1h state -> v <= 1 # 2).
Proof.
  intros Hs Hp. rewrite structural_breakdown_score_run.
  rewrite support_division_succeeds by lra.
  eexists _, _. split; [reflexivity |].
  assert (Hsev : breakdown_severity state == 0).
  { unfold breakdown_severity.
    py_case (Py.ltb (price state) (support_level state)); [lra |].
    assert (1 # 10 <= (price state - support_level state) / support_level state)
      by (apply Qle_shift_div_l; lra).
    unfold Py.max.
    py_case (Py.gtb (1 - (price state - support_level state) / support_level state * 10) 0);
      lra. }
  fold (volume_score state) (rsi_score state).
  unfold structure_score. split; [rewrite Hsev; lra |].
  intros Hr. pose proof (volume_score_le_1 state). pose proof (rsi_score_le_1 state Hr).
  rewrite Hsev. lra.
Qed.

Lemma structure_score_far_above_support_witness :
  exists self' v,
    structural_breakdown_score far_above_support_state init = (self', inr v) /\
    v == Py.min (volume_24h far_above_support_state / 5000000000) 1 * (3 # 10)
         + (if Py.ltb (rsi_1h far_above_support_state) 50
            then (50 - rsi_1h far_above_support_state) / 50 else 0) * (2 # 10) /\
    (0 <= rsi_1h far_above_support_state -> v <= 1 # 2).
Proof.
  apply (structure_score_far_above_support far_above_support_state init).
  - reflexivity.
  - discriminate.
Defined.

(** X3: [structural_breakdown_score] raises exactly when the support level is
    zero and the price is not negative; it then raises ZeroDivisionError and
    leaves the object as it was.  In every other case, a zero support level
    under a negative price included, it returns the score it has stored under
    ['structure_score']. *)
Theorem structural_breakdown_score_raises (state : MarketState) (self : Predictor) :
  (support_level state == 0 /\ 0 <= price state ->
     structural_breakdown_score state self = (self, inl ZeroDivisionError)) /\
  (~ (support_level state == 0 /\ 0 <= price state) ->
     exists v,
       structural_breakdown_score state self = (record "structure_score" v self, inr v) /\
       self_features (record "structure_score" v self) !! "structure_score" = Some v).
Proof.
  rewrite structural_breakdown_score_run. unfold support_division_fails.
  py_case (Py.ltb (price state) (support_level state)); cbn [negb andb].
  - split; [intros [Hs Hp]; lra |].
    intros _. eexists. split; [reflexivity |].
    unfold record. cbn [self_features]. apply lookup_insert_eq.
  - py_case (Py.is_zero (support_level state)).
    + split; [reflexivity |]. intros Hn. exfalso. apply Hn. split; [assumption | lra].
    + split; [intros [Hs _]; contradiction |].
      intros _. eexists. split; [reflexivity |].
      unfold record. cbn [self_features]. apply lookup_insert_eq.
Qed.

Lemma structural_breakdown_score_raises_witness :
  structural_breakdown_score zero_support_state init = (init, inl ZeroDivisionError) /\
  exists v,
    structural_breakdown_score zero_support_negative_price_state init =
      (record "structure_score" v init, inr v) /\
    self_features (record "structure_score" v init) !! "structure_score" = Some v.
Proof.
  split.
  - apply (proj1 (structural_breakdown_score_raises zero_support_state init)).
    split; [reflexivity | discriminate].
  - apply (proj2 (structural_breakdown_score_raises zero_support_negative_price_state init)).
    intros [_ Hp]. apply Hp. reflexivity.
Defined.

(** ** What a call of [predict] leaves in the object *)

(** X4: after a call of [predict] that returns, [self.features] holds under
    ['funding_pressure'] and ['structure_score'] the scores the two scorers
    return for the snapshot, every other key of the dictionary is as it was,
    and [self.flush_probability] is the probability of the returned
    prediction. *)
Theorem predict_stores_scores (hour_utc : Z) (state : MarketState)
    (self self' : Predictor) (r : Prediction) :
  predict hour_utc state self = (self', inr r) ->
  exists funding_pain structural_damage,
    snd (calculate_funding_pressure state self) = inr funding_pain /\
    snd (structural_breakdown_score state self) = inr structural_damage /\
    self_features self' !! "funding_pressure" = Some funding_pain /\
    self_features self' !! "structure_score" = Some structural_damage /\
    (forall key : string,
       key <> "funding_pressure" -> key <> "structure_score" ->
       self_features self' !! key = self_features self !! key) /\
    self_flush_probability self' = flush_probability r.
Proof.
  intros Hrun.
  destruct (predict_returns_scores _ _ _ _ _ Hrun self) as [Hfp Hsd].
  pose proof (predict_returns_state _ _ _ _ _ Hrun) as ->.
  apply predict_returns in Hrun. subst r.
  exists (funding_pressure state), (structure_score state).
  unfold after_predict. cbn [self_features self_flush_probability flush_probability prediction].
  repeat split; trivial.
  - rewrite lookup_insert_ne by discriminate. apply lookup_insert_eq.
  - apply lookup_insert_eq.
  - intros key Hk1 Hk2. rewrite !lookup_insert_ne by congruence. reflexivity.
Qed.

Lemma predict_stores_scores_witness :
  exists funding_pain structural_damage,
    snd (calculate_funding_pressure current_state init) = inr funding_pain /\
    snd (structural_breakdown_score current_state init) = inr structural_damage /\
    self_features (after_predict 13 current_state init) !! "funding_pressure"
      = Some funding_pain /\
    self_features (after_predict 13 current_state init) !! "structure_score"
      = Some structural_damage /\
    (forall key : string,
       key <> "funding_pressure" -> key <> "structure_score" ->
       self_features (after_predict 13 current_state init) !! key
         = self_features init !! key) /\
    self_flush_probability (after_predict 13 current_state init)
      = flush_probability (prediction 13 current_state).
Proof.
  apply (predict_stores_scores 13 current_state init).
  rewrite predict_run. reflexivity.
Defined.

(** X5: the ['features'] entry of a prediction is the dictionary of the
    object itself.  After a later call of [predict] on the same object, the
    dictionary reached through the earlier prediction holds the scores of the
    later snapshot, and it is the dictionary the later prediction points
    to. *)
Theorem later_call_rewrites_earlier_features (hour1 hour2 : Z) (state1 state2 : MarketState)
    (self self1 self2 : Predictor) (r1 r2 : Prediction) :
  predict hour1 state1 self = (self1, inr r1) ->
  predict hour2 state2 self1 = (self2, inr r2) ->
  exists funding_pain structural_damage,
    snd (calculate_funding_pressure state2 self1) = inr funding_pain /\
    snd (structural_breakdown_score state2 self1) = inr structural_damage /\
    deref self2 (features r1) !! "funding_pressure" = Some funding_pain /\
    deref self2 (features r1) !! "structure_score" = Some structural_damage /\
    deref self2 (features r1) = deref self2 (features r2).
Proof.
  intros Hrun1 Hrun2.
  destruct (predict_returns_scores _ _ _ _ _ Hrun2 self1) as [Hfp Hsd].
  pose proof (predict_returns_state _ _ _ _ _ Hrun2) as ->.
  apply predict_returns in Hrun1, Hrun2. subst r1 r2.
  exists (funding_pressure state2), (structure_score state2).
  cbn [features prediction deref]. unfold after_predict. cbn [self_features].
  repeat split; trivial.
  - rewrite lookup_insert_ne by discriminate. apply lookup_insert_eq.
  - apply lookup_insert_eq.
Qed.

Lemma later_call_rewrites_earlier_features_witness :
  deref (after_predict 13 current_state init) (features (prediction 13 current_state))
    !! "structure_score" <>
  deref (after_predict 13 both_rules_state (after_predict 13 current_state init))
        (features (prediction 13 current_state)) !! "structure_score".
Proof.
  destruct (later_call_rewrites_earlier_features 13 13 current_state both_rules_state
              init (after_predict 13 current_state init)
              (after_predict 13 both_rules_state (after_predict 13 current_state init))
              (prediction 13 current_state) (prediction 13 both_rules_state))
    as (fp & sd & _ & Hsd & _ & Hlook & _).
  - rewrite predict_run. reflexivity.
  - rewrite predict_run. reflexivity.
  - rewrite Hlook.
    rewrite structural_breakdown_score_run in Hsd. cbn in Hsd.
    injection Hsd as <-.
    cbn [features prediction deref]. unfold after_predict. cbn [self_features].
    rewrite lookup_insert_eq. intros Heq.
    apply (f_equal (fun o => match o with
                             | Some q => Qle_bool (7 # 10) q
                             | None => false
                             end)) in Heq.
    vm_compute in Heq. discriminate.
Defined.

(** ** Signal and confidence *)

(** X6: a prediction of signal SHORT_FLUSH has confidence HIGH or MEDIUM, and
    a prediction of confidence LOW has the signal NEUTRAL/CONSOLIDATION. *)
Theorem short_flush_is_never_low (hour_utc : Z) (state : MarketState)
    (self self' : Predictor) (r : Prediction) :
  predict hour_utc state self = (self', inr r) ->
  (signal r = "SHORT_FLUSH" -> confidence r = "HIGH" \/ confidence r = "MEDIUM") /\
  (confidence r = "LOW" -> signal r = "NEUTRAL/CONSOLIDATION").
Proof.
  intros Hrun. apply predict_returns in Hrun. subst r.
  cbn [confidence signal prediction]. unfold confidence_of, signal_of.
  py_case (Py.gtb (chosen_probability hour_utc state) (65 # 100)).
  - assert (Py.gtb (chosen_probability hour_utc state) (5 # 10) = true) as ->
      by (apply gtb_gt; lra).
    destruct (Py.gtb (chosen_probability hour_utc state) (7 # 10));
      split; intros; auto; discriminate.
  - split; [discriminate | reflexivity].
Qed.

Lemma short_flush_is_never_low_witness :
  confidence (prediction 13 both_rules_state) = "HIGH" \/
  confidence (prediction 13 both_rules_state) = "MEDIUM".
Proof.
  apply (short_flush_is_never_low 13 both_rules_state init
           (after_predict 13 both_rules_state init) (prediction 13 both_rules_state)).
  - rewrite predict_run. reflexivity.
  - reflexivity.
Defined.

(** ** What the hour and the funding rate rule out *)

Lemma regime_outside_session (hour_utc : Z) (state : MarketState) :
  ~ (8 <= hour_utc < 16)%Z ->
  String.eqb (regime_label hour_utc state) "funding_liquidation_window" = false /\
  String.eqb (regime_label hour_utc state) "consolidation_bleed" = false.
Proof.
  intros Hh. rewrite regime_is_liquidation_window, regime_is_consolidation_bleed.
  assert (european_session hour_utc = false) as ->; [| split; reflexivity].
  unfold european_session. apply andb_false_iff.
  destruct (Z_lt_le_dec hour_utc 8);
    [left; apply Z.leb_gt | right; apply Z.ltb_ge]; lia.
Qed.

(** X7: outside the hours 8 to 15 the first and the third branch of
    [predict] are out of reach: a returned prediction either is the default
    one (probability 0.2, target the resistance level) or comes from the
    second branch, with a structure score above 0.7, a positive funding rate,
    the probability structure score * 0.8 and the support level as target. *)
Theorem outside_session_outcomes (hour_utc : Z) (state : MarketState)
    (self self' : Predictor) (r : Prediction) :
  ~ (8 <= hour_utc < 16)%Z ->
  predict hour_utc state self = (self', inr r) ->
  (flush_probability r = 2 # 10 /\ target_price r = resistance_level state) \/
  (exists structural_damage,
     snd (structural_breakdown_score state self) = inr structural_damage /\
     7 # 10 < structural_damage /\ 0 < funding_rate state /\
     flush_probability r = structural_damage * (8 # 10) /\
     target_price r = support_level state).
Proof.
  intros Hh Hrun.
  destruct (predict_returns_scores _ _ _ _ _ Hrun self) as [_ Hsd].
  apply predict_returns in Hrun. subst r.
  cbn [flush_probability target_price prediction].
  unfold chosen_probability, chosen_target, rule1, rule3.
  destruct (regime_outside_session hour_utc state Hh) as [-> ->]. cbn [andb].
  destruct (rule2 state) eqn:R2; [| left; split; reflexivity].
  right. exists (structure_score state).
  apply andb_true_iff in R2 as [R2 R2']. apply gtb_gt in R2, R2'.
  repeat split; trivial.
Qed.

Lemma outside_session_outcomes_witness :
  (flush_probability (prediction 20 current_state) = 2 # 10 /\
   target_price (prediction 20 current_state) = resistance_level current_state) \/
  (exists structural_damage,
     snd (structural_breakdown_score current_state init) = inr structural_damage /\
     7 # 10 < structural_damage /\ 0 < funding_rate current_state /\
     flush_probability (prediction 20 current_state) = structural_damage * (8 # 10) /\
     target_price (prediction 20 current_state) = support_level current_state).
Proof.
  apply (outside_session_outcomes 20 current_state init (after_predict 20 current_state init)).
  - lia.
  - rewrite predict_run. reflexivity.
Defined.

Lemma funding_pressure_zero_rate (state : MarketState) :
  funding_rate state == 0 -> funding_pressure state == 0.
Proof.
  intros Hz. unfold funding_pressure.
  assert (funding_z state == 0) as ->; [| lra].
  assert (Ha : Qabs (funding_rate state) == 0) by (rewrite Hz; reflexivity).
  unfold funding_z, Py.min.
  py_case (Py.ltb 1 (Qabs (funding_rate state) / (8 # 10000))); qarith.
Qed.

(** X8: with a funding rate of zero the funding pressure is zero, so neither
    the first nor the second branch of [predict] is taken: a returned
    prediction has the probability 0.5 or 0.2, the signal
    NEUTRAL/CONSOLIDATION and the confidence LOW. *)
Theorem zero_funding_rate_is_neutral (hour_utc : Z) (state : MarketState)
    (self self' : Predictor) (r : Prediction) :
  funding_rate state == 0 ->
  predict hour_utc state self = (self', inr r) ->
  snd (calculate_funding_pressure state self) = inr (funding_pressure state) /\
  funding_pressure state == 0 /\
  (flush_probability r = 5 # 10 \/ flush_probability r = 2 # 10) /\
  signal r = "NEUTRAL/CONSOLIDATION" /\
  confidence r = "LOW".
Proof.
  intros Hz Hrun.
  destruct (predict_returns_scores _ _ _ _ _ Hrun self) as [Hfp _].
  apply predict_returns in Hrun. subst r.
  pose proof (funding_pressure_zero_rate state Hz) as Hp.
  split; [exact Hfp |]. split; [exact Hp |].
  cbn [flush_probability signal confidence prediction].
  unfold chosen_probability, rule1, rule2.
  assert (Py.gtb (funding_pressure state) (6 # 10) = false) as ->
    by (apply gtb_le; lra).
  assert (Py.gtb (funding_rate state) 0 = false) as ->
    by (apply gtb_le; lra).
  rewrite !andb_false_r.
  destruct (rule3 hour_utc state); repeat split; auto.
Qed.

Lemma zero_funding_rate_is_neutral_witness :
  signal (prediction 13 zero_funding_state) = "NEUTRAL/CONSOLIDATION".
Proof.
  apply (zero_funding_rate_is_neutral 13 zero_funding_state init
           (after_predict 13 zero_funding_state init)).
  - reflexivity.
  - rewrite predict_run. reflexivity.
Defined.

(** ** Monotonicity of the scores *)

Lemma time_pressure_antitone (state1 state2 : MarketState) :
  funding_countdown_hours state1 <= funding_countdown_hours state2 ->
  time_pressure state2 <= time_pressure state1.
Proof.
  intros Hcd. unfold time_pressure, Py.max, Py.min.
  py_case (Py.ltb (95 # 100) (1 - funding_countdown_hours state1 / 8));
  py_case (Py.ltb (95 # 100) (1 - funding_countdown_hours state2 / 8));
  repeat match goal with
         | |- context [Py.gtb ?a (3 # 10)] => py_case (Py.gtb a (3 # 10))
         end;
  qarith.
Qed.

(** X9: the funding pressure does not decrease when the funding settlement
    comes closer: of two snapshots with the same funding rate, price and
    (non-zero) resistance level, the one with fewer hours left gets at least
    the pressure of the other. *)
Theorem funding_pressure_antitone_in_countdown (state1 state2 : MarketState)
    (self : Predictor) :
  funding_rate state1 = funding_rate state2 ->
  price state1 = price state2 ->
  resistance_level state1 = resistance_level state2 ->
  ~ resistance_level state1 == 0 ->
  funding_countdown_hours state1 <= funding_countdown_hours state2 ->
  exists v1 v2,
    snd (calculate_funding_pressure state1 self) = inr v1 /\
    snd (calculate_funding_pressure state2 self) = inr v2 /\
    v2 <= v1.
Proof.
  intros Hfr Hp Hres Hnz Hcd.
  rewrite !calculate_funding_pressure_run. rewrite <- Hres.
  apply is_zero_false in Hnz. rewrite Hnz. cbn [snd].
  eexists _, _. split; [reflexivity |]. split; [reflexivity |].
  pose proof (time_pressure_antitone state1 state2 Hcd) as Ht.
  pose proof (funding_z_range state1) as Hz.
  assert (Hz2 : funding_z state2 = funding_z state1)
    by (unfold funding_z; rewrite Hfr; reflexivity).
  assert (Hpen : funding_penalty state2 = funding_penalty state1)
    by (unfold funding_penalty, penalised, price_vs_resistance;
        rewrite Hfr, Hp, Hres; reflexivity).
  unfold funding_pressure. rewrite Hz2, Hpen.
  destruct (funding_penalty_cases state1) as [[_ ->] | [_ ->]]; nra.
Qed.

Lemma funding_pressure_antitone_in_countdown_witness :
  exists v1 v2,
    snd (calculate_funding_pressure current_state init) = inr v1 /\
    snd (calculate_funding_pressure five_hours_left_state init) = inr v2 /\
    v2 <= v1.
Proof.
  apply (funding_pressure_antitone_in_countdown current_state five_hours_left_state init).
  - reflexivity.
  - reflexivity.
  - reflexivity.
  - discriminate.
  - discriminate.
Defined.

Lemma breakdown_severity_antitone (state1 state2 : MarketState) :
  support_level state1 = support_level state2 ->
  0 < support_level state1 ->
  price state1 <= price state2 ->
  breakdown_severity state2 <= breakdown_severity state1.
Proof.
  intros Hs Hpos Hp.
  pose proof (breakdown_severity_le_1 state2) as Hle.
  rewrite <- Hs in Hle. specialize (Hle Hpos).
  unfold breakdown_severity in *. rewrite <- Hs in *.
  py_case (Py.ltb (price state1) (support_level state1)); [exact Hle |].
  py_case (Py.ltb (price state2) (support_level state1)); [lra |].
  assert (Hd : (price state1 - support_level state1) / support_level state1
               <= (price state2 - support_level state1) / support_level state1).
  { unfold Qdiv. apply Qmult_le_compat_r; [lra |].
    apply Qlt_le_weak, Qinv_lt_0_compat, Hpos. }
  unfold Py.max.
  repeat match goal with
         | |- context [Py.gtb ?a 0] => py_case (Py.gtb a 0)
         end;
  lra.
Qed.

(** X10: with a positive support level the structure score does not increase
    when the price rises: of two snapshots with the same support level,
    volume and RSI, the one with the higher price gets at most the score of
    the other.  Crossing the support level is no exception. *)
Theorem structure_score_antitone_in_price (state1 state2 : MarketState)
    (self : Predictor) :
  support_level state1 = support_level state2 ->
  volume_24h state1 = volume_24h state2 ->
  rsi_1h state1 = rsi_1h state2 ->
  0 < support_level state1 ->
  price state1 <= price state2 ->
  exists v1 v2,
    snd (structural_breakdown_score state1 self) = inr v1 /\
    snd (structural_breakdown_score state2 self) = inr v2 /\
    v2 <= v1.
Proof.
  intros Hs Hv Hr Hpos Hp.
  rewrite !structural_breakdown_score_run.
  rewrite !support_division_succeeds by (rewrite <- ?Hs; lra). cbn [snd].
  eexists _, _. split; [reflexivity |]. split; [reflexivity |].
  pose proof (breakdown_severity_antitone state1 state2 Hs Hpos Hp) as Hsev.
  unfold structure_score, volume_score, rsi_score. rewrite <- Hv, <- Hr. lra.
Qed.

Lemma structure_score_antitone_in_price_witness :
  exists v1 v2,
    snd (structural_breakdown_score broken_support_state init) = inr v1 /\
    snd (structural_breakdown_score current_state init) = inr v2 /\
    v2 <= v1.
Proof.
  apply (structure_score_antitone_in_price broken_support_state current_state init).
  - reflexivity.
  - reflexivity.
  - reflexivity.
  - reflexivity.
  - discriminate.
Defined.

(** ** The later branches of [predict] *)

(** X11: when the first condition of [predict] fails (the regime is not
    funding_liquidation_window or the funding pressure is at most 0.6), the
    remaining branches are tried in order: a structure score above 0.7 with
    a positive funding rate gives structure score * 0.8 and the support
    level; otherwise the regime consolidation_bleed with an RSI under 40
    gives 0.5 and the support level; otherwise the result is 0.2 and the
    resistance level. *)
Theorem later_branches_in_order (hour_utc : Z) (state : MarketState)
    (self self1 self2 self3 : Predictor) (funding_pain structural_damage : Q)
    (label : string) :
  calculate_funding_pressure state self = (self1, inr funding_pain) ->
  structural_breakdown_score state self1 = (self2, inr structural_damage) ->
  time_regime_classifier hour_utc state self2 = (self3, inr label) ->
  ~ (label = "funding_liquidation_window" /\ 6 # 10 < funding_pain) ->
  exists self' r,
    predict hour_utc state self = (self', inr r) /\
    (7 # 10 < structural_damage /\ 0 < funding_rate state ->
       flush_probability r = structural_damage * (8 # 10) /\
       target_price r = support_level state) /\
    (~ (7 # 10 < structural_damage /\ 0 < funding_rate state) ->
     label = "consolidation_bleed" -> rsi_1h state < 40 ->
       flush_probability r = 5 # 10 /\ target_price r = support_level state) /\
    (~ (7 # 10 < structural_damage /\ 0 < funding_rate state) ->
     ~ (label = "consolidation_bleed" /\ rsi_1h state < 40) ->
       flush_probability r = 2 # 10 /\ target_price r = resistance_level state).
Proof.
  intros Hfp Hsd Hreg Hnot1.
  unfold predict, bind at 1. rewrite Hfp.
  unfold bind at 1. rewrite Hsd.
  unfold bind at 1. rewrite Hreg.
  assert (String.eqb label "funding_liquidation_window"
          && Py.gtb funding_pain (6 # 10) = false) as ->.
  { apply not_true_iff_false. intros H. apply andb_true_iff in H as [H1 H2].
    apply String.eqb_eq in H1. apply gtb_gt in H2. auto. }
  destruct (Py.gtb structural_damage (7 # 10) && Py.gtb (funding_rate state) 0) eqn:R2.
  { apply andb_true_iff in R2 as [H1 H2]. apply gtb_gt in H1, H2.
    eexists _, _. split; [reflexivity |].
    cbn [flush_probability target_price].
    repeat split; intros; tauto. }
  assert (Hnot2 : ~ (7 # 10 < structural_damage /\ 0 < funding_rate state)).
  { intros [H1 H2]. apply gtb_gt in H1, H2. rewrite H1, H2 in R2. discriminate. }
  destruct (String.eqb label "consolidation_bleed" && Py.ltb (rsi_1h state) 40) eqn:R3.
  { apply andb_true_iff in R3 as [H1 H2]. apply String.eqb_eq in H1. apply ltb_lt in H2.
    eexists _, _. split; [reflexivity |].
    cbn [flush_probability target_price].
    repeat split; intros; tauto. }
  assert (Hnot3 : ~ (label = "consolidation_bleed" /\ rsi_1h state < 40)).
  { intros [H1 H2]. apply String.eqb_eq in H1. apply ltb_lt in H2.
    rewrite H1, H2 in R3. discriminate. }
  eexists _, _. split; [reflexivity |].
  cbn [flush_probability target_price].
  repeat split; intros; tauto.
Qed.

Lemma later_branches_in_order_witness :
  exists self' r,
    predict 13 broken_support_state init = (self', inr r) /\
    flush_probability r = structure_score broken_support_state * (8 # 10) /\
    target_price r = support_level broken_support_state.
Proof.
  destruct (later_branches_in_order 13 broken_support_state init
              (record "funding_pressure" (funding_pressure broken_support_state) init)
              (record "structure_score" (structure_score broken_support_state)
                 (record "funding_pressure" (funding_pressure broken_support_state) init))
              (record "structure_score" (structure_score broken_support_state)
                 (record "funding_pressure" (funding_pressure broken_support_state) init))
              (funding_pressure broken_support_state)
              (structure_score broken_support_state)
              "consolidation_bleed")
    as (self' & r & Hrun & Hrule2 & _).
  - rewrite calculate_funding_pressure_run. reflexivity.
  - rewrite structural_breakdown_score_run. reflexivity.
  - rewrite time_regime_classifier_run. reflexivity.
  - intros [Hlabel _]. discriminate Hlabel.
  - exists self', r. split; [exact Hrun |].
    apply Hrule2. split; reflexivity.
Defined.

(** ** The two scorers side by side *)

(** X12: the two scorers write different keys and read nothing of the object:
    called in either order on one object they leave it in the same state,
    whether they return or raise, and the outcome of each does not depend on
    whether the other ran before. *)
Theorem scorers_commute (state : MarketState) (self : Predictor) :
  fst (structural_breakdown_score state (fst (calculate_funding_pressure state self))) =
  fst (calculate_funding_pressure state (fst (structural_breakdown_score state self))) /\
  snd (structural_breakdown_score state (fst (calculate_funding_pressure state self))) =
  snd (structural_breakdown_score state self) /\
  snd (calculate_funding_pressure state (fst (structural_breakdown_score state self))) =
  snd (calculate_funding_pressure state self).
Proof.
  rewrite !calculate_funding_pressure_run, !structural_breakdown_score_run.
  destruct (Py.is_zero (resistance_level state)), (support_division_fails state);
    cbn [fst snd]; repeat split.
  unfold record. cbn [self_features self_flush_probability]. f_equal.
  apply insert_insert_ne. discriminate.
Qed.

(** ** The values a prediction can hold *)

(** X13: a returned prediction carries one of the five regime labels, one of
    the two signals, one of the three confidence levels, and a target that
    is the support level, 0.995 times the support level or the resistance
    level. *)
Theorem prediction_labels (hour_utc : Z) (state : MarketState)
    (self self' : Predictor) (r : Prediction) :
  predict hour_utc state self = (self', inr r) ->
  (regime r = "funding_liquidation_window" \/ regime r = "consolidation_bleed" \/
   regime r = "asia_deleveraging" \/ regime r = "us_momentum" \/ regime r = "standard") /\
  (signal r = "SHORT_FLUSH" \/ signal r = "NEUTRAL/CONSOLIDATION") /\
  (confidence r = "HIGH" \/ confidence r = "MEDIUM" \/ confidence r = "LOW") /\
  (target_price r = support_level state * (995 # 1000) \/
   target_price r = support_level state \/
   target_price r = resistance_level state).
Proof.
  intros Hrun. apply predict_returns in Hrun. subst r.
  cbn [regime signal confidence target_price prediction].
  repeat split.
  - unfold regime_label.
    repeat match goal with |- context [if ?c then _ else _] => destruct c end; auto.
  - unfold signal_of. destruct (Py.gtb _ _); auto.
  - unfold confidence_of.
    repeat match goal with |- context [if ?c then _ else _] => destruct c end; auto.
  - unfold chosen_target.
    repeat match goal with |- context [if ?c then _ else _] => destruct c end; auto.
Qed.

Lemma prediction_labels_witness :
  signal (prediction 13 current_state) = "SHORT_FLUSH" \/
  signal (prediction 13 current_state) = "NEUTRAL/CONSOLIDATION".
Proof.
  apply (prediction_labels 13 current_state init (after_predict 13 current_state init)).
  rewrite predict_run. reflexivity.
Defined.

(** ** Each bound of the probability and what it needs *)

(** X14: the two bounds of the probability rest on different inputs.  A
    returned probability is at least 0 as soon as the volume is not negative,
    and at most 0.85 as soon as the RSI is not negative and the support level
    is positive. *)
Theorem flush_probability_one_sided_bounds (hour_utc : Z) (state : MarketState)
    (self self' : Predictor) (r : Prediction) :
  predict hour_utc state self = (self', inr r) ->
  (0 <= volume_24h state -> 0 <= flush_probability r) /\
  (0 <= rsi_1h state -> 0 < support_level state -> flush_probability r <= 85 # 100).
Proof.
  intros Hrun. apply predict_returns in Hrun. subst r.
  cbn [flush_probability prediction]. unfold chosen_probability.
  pose proof (funding_pressure_range state) as Hp.
  destruct (rule1 hour_utc state).
  { split; [| intros _ _; apply min_le_r].
    intros Hv. pose proof (structure_score_nonneg state Hv). apply min_glb; nra. }
  destruct (rule2 state) eqn:R2.
  { apply andb_true_iff in R2 as [R2 _]. apply gtb_gt in R2.
    split; [intros _; lra |].
    intros Hr Hs. pose proof (structure_score_le_1 state Hr Hs). lra. }
  destruct (rule3 hour_utc state); split; intros; lra.
Qed.

Lemma flush_probability_one_sided_bounds_witness :
  0 <= flush_probability (prediction 13 both_rules_state) /\
  flush_probability (prediction 13 both_rules_state) <= 85 # 100.
Proof.
  destruct (flush_probability_one_sided_bounds 13 both_rules_state init
              (after_predict 13 both_rules_state init) (prediction 13 both_rules_state))
    as [Hlo Hhi].
  - rewrite predict_run. reflexivity.
  - split; [apply Hlo; discriminate | apply Hhi; [discriminate | reflexivity]].
Defined.

(** ** When [predict] returns *)

(** X15: [predict] returns exactly when the resistance level is not zero and
    the support level is not zero under a price that is not negative.  When
    it raises, [self.flush_probability] keeps the value it had, and of the
    dictionary only the entry ['funding_pressure'] can have changed. *)
Theorem predict_returns_iff (hour_utc : Z) (state : MarketState) (self : Predictor) :
  ((exists self' r, predict hour_utc state self = (self', inr r)) <->
   ~ resistance_level state == 0 /\
   ~ (support_level state == 0 /\ 0 <= price state)) /\
  (forall self' e,
     predict hour_utc state self = (self', inl e) ->
     self_flush_probability self' = self_flush_probability self /\
     forall key : string,
       key <> "funding_pressure" ->
       self_features self' !! key = self_features self !! key).
Proof.
  rewrite predict_run. unfold support_division_fails.
  py_case (Py.is_zero (resistance_level state)).
  { split.
    - split; [intros (? & ? & [=]) | intros [Hn _]; contradiction].
    - intros self' e [= <- _]. split; reflexivity. }
  py_case (Py.ltb (price state) (support_level state)); cbn [negb andb].
  { split.
    - split; [| eauto]. intros _. split; [assumption |]. intros [Hs Hp]. lra.
    - intros self' e [=]. }
  py_case (Py.is_zero (support_level state)).
  - split.
    + split; [intros (? & ? & [=]) |].
      intros [_ Hn]. exfalso. apply Hn. split; [assumption | lra].
    + intros self' e [= <- _]. unfold record.
      cbn [self_flush_probability self_features].
      split; [reflexivity |].
      intros key Hk. apply lookup_insert_ne. congruence.
  - split.
    + split; [| eauto]. intros _. split; [assumption |]. intros [Hs _]. contradiction.
    + intros self' e [=].
Qed.

Lemma predict_returns_iff_witness :
  exists self' r, predict 13 zero_support_negative_price_state init = (self', inr r).
Proof.
  apply (proj1 (predict_returns_iff 13 zero_support_negative_price_state init)).
  split; [discriminate |]. intros [_ Hp]. apply Hp. reflexivity.
Defined.
